(** * The Maven SDM sample ([lib/sdm/maven.ts])

    A shallow embedding of the goal configuration of the Maven sample:
    the [mavenSpringBootRun] goal action, the push rules returned by the
    [configure] callback and the [readDockerHost] accessor, together with
    models of the collaborators the file calls. *)

From Stdlib Require Import ZArith Ascii String List Bool Lia.
From Stdlib Require Import DecimalString DecimalPos DecimalZ.
From stdpp Require Import base gmap strings list.
Import ListNotations.

Local Open Scope Z_scope.
Local Open Scope string_scope.
Local Open Scope list_scope.

(** ** Strings *)

Module Str.

(** [prefixb p s]: [s] starts with [p]. *)
Fixpoint prefixb (p s : string) : bool :=
  match p, s with
  | EmptyString, _ => true
  | String a p', String b s' => if Ascii.eqb a b then prefixb p' s' else false
  | String _ _, EmptyString => false
  end.

(** [includes needle hay]: JavaScript's [hay.includes(needle)]. *)
Fixpoint includes (needle hay : string) : bool :=
  prefixb needle hay ||
  match hay with
  | EmptyString => false
  | String _ hay' => includes needle hay'
  end.

(** [s.slice(b, e)] for indices [0 <= b], [0 <= e]: the characters at
    positions [b], ..., [e-1] that exist in [s]. *)
Definition slice (b e : nat) (s : string) : string :=
  String.substring b (e - b) s.

Fixpoint forallb (f : ascii -> bool) (s : string) : bool :=
  match s with
  | EmptyString => true
  | String a s' => f a && forallb f s'
  end.

(** [span stop s] cuts [s] in front of the first character satisfying
    [stop]; the second component starts with that character. *)
Fixpoint span (stop : ascii -> bool) (s : string) : string * string :=
  match s with
  | EmptyString => (EmptyString, EmptyString)
  | String a s' =>
      if stop a then (EmptyString, s)
      else let '(l, r) := span stop s' in (String a l, r)
  end.

(** [cutLast sep s]: [Some (l, r)] when [s = l ++ sep :: r] and [sep]
    does not occur in [r]; [None] when [sep] does not occur in [s]. *)
Fixpoint cutLast (sep : ascii) (s : string) : option (string * string) :=
  match s with
  | EmptyString => None
  | String a s' =>
      match cutLast sep s' with
      | Some (l, r) => Some (String a l, r)
      | None => if Ascii.eqb a sep then Some (EmptyString, s') else None
      end
  end.

Definition isDigit (a : ascii) : bool :=
  let n := nat_of_ascii a in (Nat.leb 48 n && Nat.leb n 57)%bool.

Definition isAlpha (a : ascii) : bool :=
  let n := nat_of_ascii a in
  ((Nat.leb 65 n && Nat.leb n 90) || (Nat.leb 97 n && Nat.leb n 122))%bool.

(** The text a template literal produces for an integral number. *)
Definition ofNumber (z : Z) : string :=
  NilZero.string_of_int (Z.to_int z).

(** The integer written by a decimal numeral. *)
Definition toNumber (s : string) : option Z :=
  match NilZero.int_of_string s with
  | Some d => Some (Z.of_int d)
  | None => None
  end.

End Str.

(** ** Completion of a call: a value is returned or an [Error] is thrown *)

Record Error := mkError { message : string }.

Inductive Outcome (A : Type) : Type :=
| Returned (a : A)
| Threw (e : Error).
Arguments Returned {A} a.
Arguments Threw {A} e.

(** ** The [URL] constructor *)

Record URL := mkURL {
  protocol : string;
  hostname : string;
  port : string;
  afterAuthority : string
}.

Module UrlParser.

Definition isSchemeChar (a : ascii) : bool :=
  (Str.isAlpha a || Str.isDigit a
   || Ascii.eqb a "+" || Ascii.eqb a "-" || Ascii.eqb a ".")%bool.

Definition endsAuthority (a : ascii) : bool :=
  (Ascii.eqb a "/" || Ascii.eqb a "?" || Ascii.eqb a "#")%bool.

Definition validScheme (s : string) : bool :=
  match s with
  | EmptyString => false
  | String a _ => (Str.isAlpha a && Str.forallb isSchemeChar s)%bool
  end.

Definition dropUserinfo (authority : string) : string :=
  match Str.cutLast "@" authority with
  | Some (_, hostport) => hostport
  | None => authority
  end.

Definition parseAuthority (scheme authority rest : string) : option URL :=
  let hostport := dropUserinfo authority in
  match Str.cutLast ":" hostport with
  | Some (h, p) =>
      if Str.forallb Str.isDigit p
      then Some (mkURL (scheme ++ ":") h p rest)
      else None
  | None => Some (mkURL (scheme ++ ":") hostport "" rest)
  end.

(** Modelled from the spec: the platform's [URL] constructor, which is
    not part of the repository.  The spec asks that the value be parsed
    "as a URL, extracting only the host component", a malformed value
    being an error.  The model reads [scheme "://" [userinfo "@"] host
    [":" port]] up to the first of [/ ? #]; a value without a scheme, or
    with a port that is not a numeral, is rejected ([None], the
    constructor's [TypeError]).  Bracketed IPv6 hosts, case folding and
    default-port elision are not modelled. *)
Definition parse (s : string) : option URL :=
  let '(scheme, r) := Str.span (Ascii.eqb ":") s in
  match r with
  | String ":" r' =>
      if validScheme scheme then
        match r' with
        | String "/" (String "/" r'') =>
            let '(authority, rest) := Str.span endsAuthority r'' in
            parseAuthority scheme authority rest
        | _ => Some (mkURL (scheme ++ ":") "" "" r')
        end
      else None
  | _ => None
  end.

(** [new URL(s)]: the parsed URL, or a thrown error. *)
Definition newURL (s : string) : Outcome URL :=
  match parse s with
  | Some u => Returned u
  | None => Threw (mkError ("Invalid URL: " ++ s))
  end.

(** The port of a URL as a number, when it has one. *)
Definition portNumber (u : URL) : option Z := Str.toNumber (port u).

End UrlParser.

(** ** [readDockerHost] *)

(** The values [readDockerHost] can hand to its caller according to its
    declared type [string | undefined]. *)
Inductive StringOrUndefined :=
| Undefined
| StringValue (s : string).

(** [readDockerHost], over the process environment [env] and the [URL]
    constructor [construct].  The guard [!dockerhost] holds for a missing
    variable and for the empty string. *)
Definition readDockerHost (construct : string -> Outcome URL)
    (env : gmap string string) : Outcome StringOrUndefined :=
  match env !! "DOCKER_HOST" with
  | None | Some EmptyString =>
      Threw (mkError "DOCKER_HOST environment variable not set")
  | Some dockerhost =>
      match construct dockerhost with
      | Returned u => Returned (StringValue (hostname u))
      | Threw e => Threw e
      end
  end.

(** ** The world a goal action runs in *)

Record LogEntry := mkLogEntry { format : string; args : list string }.

Record SlackMessage := mkSlackMessage { title : string; text : string }.

(** What a goal action can change: the goal's progress log, the messages
    delivered to the channel, the ports this process holds bound and the
    commands it has spawned. *)
Record World := mkWorld {
  progressLog : list LogEntry;
  channel : list SlackMessage;
  bound : gset Z;
  spawned : list (string * list string)
}.

(** Computations over the world that return or throw. *)
Definition M (A : Type) : Type := World -> Outcome A * World.

Definition ret {A} (a : A) : M A := fun w => (Returned a, w).

Definition throw {A} (e : Error) : M A := fun w => (Threw e, w).

Definition bind {A B} (c : M A) (k : A -> M B) : M B :=
  fun w =>
    match c w with
    | (Returned a, w') => k a w'
    | (Threw e, w') => (Threw e, w')
    end.

(** [try { body } catch (e) { handler e }] *)
Definition tryCatch {A} (body : M A) (handler : Error -> M A) : M A :=
  fun w =>
    match body w with
    | (Returned a, w') => (Returned a, w')
    | (Threw e, w') => handler e w'
    end.

Notation "'bind!' x := c1 'in' c2" := (bind c1 (fun x => c2))
  (at level 10, x name, c1 at level 100, c2 at level 200,
   format "'[v' 'bind!'  x  :=  c1  'in' '/' c2 ']'").
Notation "'run!' c1 'in' c2" := (bind c1 (fun _ => c2))
  (at level 10, c1 at level 100, c2 at level 200,
   format "'[v' 'run!'  c1  'in' '/' c2 ']'").

(** ** Goals and their results *)

Module SdmGoalState.
Inductive t := requested | in_process | success | failure.
End SdmGoalState.

Record ExternalUrl := mkExternalUrl { label : string; url : string }.

(** The object a goal action returns; every field is optional. *)
Record ExecuteGoalResult := mkResult {
  state : option SdmGoalState.t;
  code : option Z;
  externalUrls : option (list ExternalUrl)
}.

Record GoalEvent := mkGoalEvent { sha : string }.

Record GoalInvocation := mkGoalInvocation { goalEvent : GoalEvent }.

Record ProjectListener := mkListener {
  listenerName : string;
  listener : GoalInvocation -> M unit
}.

Record Goal := mkGoal {
  displayName : string;
  projectListeners : list ProjectListener;
  goalExecutor : GoalInvocation -> M ExecuteGoalResult
}.

(** ** Collaborators *)

Inductive ProcessOutcome :=
| Exited (status : Z) (output : string)
| SpawnFailed (reason : string).

Module Slack.
(** The formatting helpers of [@atomist/slack-messages]. *)
Record Helpers := mkHelpers {
  codeLine : string -> string;
  url : string -> string
}.
End Slack.

(** Everything the file imports and the machine it runs on decide: the
    message formatting helpers, which ports the operating system lets the
    process bind, how a spawned command ends and how the process runner
    words a failure, whether a message can be delivered, and the Maven
    builder and version listener of [@atomist/sdm-pack-spring]. *)
Record Externals := mkExternals {
  slack : Slack.Helpers;
  portFree : Z -> bool;
  processOutcome : string -> list string -> ProcessOutcome;
  failureMessage : ProcessOutcome -> string;
  delivery : SlackMessage -> option Error;
  mavenBuilder : GoalInvocation -> M ExecuteGoalResult;
  MvnVersion : GoalInvocation -> M unit
}.

(** [progressLog.write(format, ...args)] *)
Definition progressLog_write (fmt : string) (xs : list string) : M unit :=
  fun w =>
    (Returned tt,
     mkWorld (progressLog w ++ [mkLogEntry fmt xs]) (channel w) (bound w) (spawned w)).

(** [gi.addressChannels(msg, {})] *)
Definition addressChannels (ext : Externals) (msg : SlackMessage) : M unit :=
  fun w =>
    match delivery ext msg with
    | Some e => (Threw e, w)
    | None =>
        (Returned tt,
         mkWorld (progressLog w) (channel w ++ [msg]) (bound w) (spawned w))
    end.

(** [slackSuccessMessage(title, text, {})] *)
Definition slackSuccessMessage (ttl txt : string) : SlackMessage :=
  mkSlackMessage ttl txt.

(** *** PortAllocator *)

Module PortAllocator.

(** A port can be bound when the operating system has it free and this
    process does not hold it already. *)
Definition bindable (ext : Externals) (w : World) (p : Z) : bool :=
  (portFree ext p && negb (bool_decide (p ∈ bound w)))%bool.

Definition tryBind (ext : Externals) (p : Z) : M bool :=
  fun w =>
    if bindable ext w p
    then (Returned true,
          mkWorld (progressLog w) (channel w) ({[p]} ∪ bound w) (spawned w))
    else (Returned false, w).

Definition release (p : Z) : M unit :=
  fun w =>
    (Returned tt,
     mkWorld (progressLog w) (channel w) (bound w ∖ {[p]}) (spawned w)).

Definition PortUnavailable : Error := mkError "PortUnavailable".

(** One linear scan over [n] candidates starting at [p]. *)
Fixpoint scanFrom (ext : Externals) (p : Z) (n : nat) : M Z :=
  match n with
  | O => throw PortUnavailable
  | S n' =>
      bind! ok := tryBind ext p in
      if ok then (run! release p in ret p)
      else scanFrom ext (p + 1) n'
  end.

(** Modelled from the spec: [scanFreePort] of
    [@atomist/automation-client], which is not under [src/].  "Scans
    candidate ports inclusively from low to high, attempting to bind
    each; returns the first port that succeeds, immediately releasing
    the bind so the caller may reuse it.  Fails with [PortUnavailable]
    if no port in range is bindable." *)
Definition scanFreePort (ext : Externals) (low high : Z) : M Z :=
  scanFrom ext low (Z.to_nat (high - low + 1)).

End PortAllocator.

(** *** ProcessRunner *)

Record ExecPromiseResult := mkExecResult { stdout : string }.

(** Modelled from the spec: [execPromise] of [@atomist/sdm], which is not
    under [src/].  "Spawns the external command, captures combined
    standard output/error.  Resolves with full captured output on exit
    code 0.  Fails with an error object carrying the captured output and
    exit code on nonzero exit or spawn failure." *)
Definition execPromise (ext : Externals) (cmd : string) (argv : list string)
  : M ExecPromiseResult :=
  fun w =>
    let w' := mkWorld (progressLog w) (channel w) (bound w)
                      (spawned w ++ [(cmd, argv)]) in
    match processOutcome ext cmd argv with
    | Exited 0 out => (Returned (mkExecResult out), w')
    | o => (Threw (mkError (failureMessage ext o)), w')
    end.

(** ** The goals of the configuration *)

(** [`http://localhost:${port}`] *)
Definition appUrlOf (port : Z) : string :=
  "http://localhost:" ++ Str.ofNumber port.

(** The action of the [maven spring boot run] goal. *)
Definition mavenSpringBootRun_action (ext : Externals) (gi : GoalInvocation)
  : M ExecuteGoalResult :=
  bind! port := PortAllocator.scanFreePort ext 8000 8100 in
  let appUrl := appUrlOf port in
  tryCatch
    (bind! result := execPromise ext "mvn"
       ["spring-boot:run";
        "-Dspring-boot.run.arguments=--server.port=" +:+ Str.ofNumber port] in
     run! addressChannels ext
       (slackSuccessMessage "Maven Spring Boot Run"
          ("Successfully started "
           ++ Slack.codeLine (slack ext) (Str.slice 0 7 (sha (goalEvent gi)))
           ++ " at " ++ Slack.url (slack ext) appUrl)) in
     ret (mkResult (Some SdmGoalState.success) None
            (Some [mkExternalUrl "http" appUrl])))
    (fun e =>
       run! progressLog_write "Container run command failed: %s" [message e] in
       ret (mkResult None (Some 1) None)).

(** The arguments [mvn] is run with and the message sent on success, as
    the action builds them. *)
Definition runArguments (port : Z) : list string :=
  ["spring-boot:run";
   "-Dspring-boot.run.arguments=--server.port=" +:+ Str.ofNumber port].

Definition successMessage (ext : Externals) (gi : GoalInvocation) (appUrl : string)
  : SlackMessage :=
  slackSuccessMessage "Maven Spring Boot Run"
    ("Successfully started "
     ++ Slack.codeLine (slack ext) (Str.slice 0 7 (sha (goalEvent gi)))
     ++ " at " ++ Slack.url (slack ext) appUrl).

(** The result [{ code: 1 }] of the [catch] branch. *)
Definition codeOne : ExecuteGoalResult := mkResult None (Some 1) None.

(** A completion with state [success] and exactly one external URL, whose
    port is [p]. *)
Definition succeedsOnPort (o : Outcome ExecuteGoalResult) (p : Z) : Prop :=
  exists r u x,
    o = Returned r /\
    state r = Some SdmGoalState.success /\
    externalUrls r = Some [u] /\
    UrlParser.parse (url u) = Some x /\
    UrlParser.portNumber x = Some p.

Definition mavenSpringBootRun (ext : Externals) : Goal :=
  mkGoal "maven spring boot run" [] (mavenSpringBootRun_action ext).

(** [new Build({displayName}).with({name, builder}).withProjectListener(MvnVersion)] *)
Definition buildGoal (ext : Externals) : Goal :=
  mkGoal "maven build" [mkListener "MvnVersion" (MvnVersion ext)]
         (mavenBuilder ext).

(** ** Pushes and push tests *)

(** A push: the repository, the commit and the paths of the files the
    repository holds at that commit. *)
Record PushEvent := mkPush {
  repo : string;
  commit : string;
  snapshot : gset string
}.

Module PushTest.

(** The push tests of [@atomist/sdm] the file imports, as an
    expression tree. *)
#[warnings="-register-all"] Inductive t :=
| hasFile (path : string)
| hasFileWithExtension (extension : string)
| not (p : t)
| and (ps : list t)
| or (ps : list t).

Definition endsWith (suffix s : string) : bool :=
  let n := String.length s in
  let k := String.length suffix in
  (Nat.leb k n && String.eqb (String.substring (n - k) k s) suffix)%bool.

(** Modelled from the spec: the evaluation of push tests, which
    [@atomist/sdm] implements and [src/] does not.  "[hasFile(name)] -
    true iff a file with exact name exists in the snapshot;
    [hasFileWithExtension(ext)] - true iff any file's name ends with
    the extension.  Combinators: [and(p...)] short-circuits on first
    false; [or(p...)] short-circuits on first true; [not(p)]
    negates." *)
Fixpoint eval (p : t) (files : gset string) : bool :=
  match p with
  | hasFile path => bool_decide (path ∈ files)
  | hasFileWithExtension extension =>
      List.existsb (endsWith extension) (elements files)
  | not q => negb (eval q files)
  | and ps => List.forallb (fun q => eval q files) ps
  | or ps => List.existsb (fun q => eval q files) ps
  end.

End PushTest.

(** ** PredicateEvaluator *)

Module PredicateEvaluator.

(** Modelled from the spec: the evaluator of push tests over the
    repository snapshot provider, both of [@atomist/sdm] and not under
    [src/].  The provider "returns the set of file paths for a given
    commit"; [read] is that call, which like any call returns or throws.
    A base test reads the snapshot and inspects the paths; "[and(p...)]
    short-circuits on first false; [or(p...)] short-circuits on first
    true; [not(p)] negates".  What a test throws, the test around it
    throws. *)
Fixpoint evaluate (read : M (gset string)) (p : PushTest.t) : M bool :=
  match p with
  | PushTest.hasFile path =>
      bind! files := read in
      ret (bool_decide (path ∈ files))
  | PushTest.hasFileWithExtension extension =>
      bind! files := read in
      ret (List.existsb (PushTest.endsWith extension) (elements files))
  | PushTest.not q =>
      bind! b := evaluate read q in
      ret (negb b)
  | PushTest.and ps =>
      (fix all (qs : list PushTest.t) : M bool :=
         match qs with
         | [] => ret true
         | q :: qs' =>
             bind! b := evaluate read q in
             if b then all qs' else ret false
         end) ps
  | PushTest.or ps =>
      (fix any (qs : list PushTest.t) : M bool :=
         match qs with
         | [] => ret false
         | q :: qs' =>
             bind! b := evaluate read q in
             if b then ret true else any qs'
         end) ps
  end.


End PredicateEvaluator.

(** ** The push rules *)

Record Goals := mkGoals { goalList : list Goal; lock : bool }.

Definition DoNotSetAnyGoals : Goals := mkGoals [] false.

Definition andLock (gs : Goals) : Goals := mkGoals (goalList gs) true.

(** A plain array of goals used where [Goals] is expected. *)
Definition goalArray (gs : list Goal) : Goals := mkGoals gs false.

Record GoalData := mkGoalData {
  test : option PushTest.t;
  goals : Goals;
  dependsOn : option string
}.

(** The object the [configure] callback returns: the rules by name, in
    the order they are written. *)
Definition configuration (ext : Externals) : list (string * GoalData) :=
  [ ("no_goals",
     mkGoalData (Some (PushTest.not (PushTest.hasFile "pom.xml")))
                (andLock DoNotSetAnyGoals) None);
    ("build",
     mkGoalData None (goalArray [buildGoal ext]) None);
    ("run",
     mkGoalData None (goalArray [mavenSpringBootRun ext]) (Some "build")) ].


(** ** GoalSetResolver *)

Record Resolution := mkResolution {
  ordered : list (string * GoalData);
  locked : bool
}.

Module Resolver.

(** A rule without a test applies to every push. *)
Definition applies (push : PushEvent) (r : GoalData) : bool :=
  match test r with
  | Some p => PushTest.eval p (snapshot push)
  | None => true
  end.

Definition matched (push : PushEvent) (rules : list (string * GoalData))
  : list (string * GoalData) :=
  List.filter (fun nr => applies push (snd nr)) rules.

(** The matched rules up to the first one that locks: its goal set is
    the last one of the push. *)
Fixpoint untilLock (rs : list (string * GoalData))
  : list (string * GoalData) * bool :=
  match rs with
  | [] => ([], false)
  | nr :: rest =>
      if lock (goals (snd nr)) then ([nr], true)
      else let '(kept, l) := untilLock rest in (nr :: kept, l)
  end.

Definition ready (placed : list (string * GoalData)) (r : GoalData) : bool :=
  match dependsOn r with
  | None => true
  | Some d => List.existsb (String.eqb d) (List.map fst placed)
  end.

(** The first pending rule whose dependency has been placed. *)
Fixpoint pickReady (placed pending : list (string * GoalData))
  : option ((string * GoalData) * list (string * GoalData)) :=
  match pending with
  | [] => None
  | nr :: rest =>
      if ready placed (snd nr) then Some (nr, rest)
      else match pickReady placed rest with
           | Some (x, rest') => Some (x, nr :: rest')
           | None => None
           end
  end.

(** Dependency order with declaration order as tie-break.  A rule whose
    dependency is never placed stays pending and is dropped. *)
Fixpoint order (fuel : nat) (placed pending : list (string * GoalData))
  : list (string * GoalData) :=
  match fuel with
  | O => placed
  | S fuel' =>
      match pickReady placed pending with
      | Some (x, rest) => order fuel' (placed ++ [x]) rest
      | None => placed
      end
  end.

(** Modelled from the spec: rule resolution, which [configure] of
    [@atomist/sdm-core] implements and [src/] does not.  "Evaluate every
    rule's predicate against the push; collect the subset that evaluates
    true.  Build a dependency graph from [dependsOn] edges restricted to
    the matched subset; a rule depending on a non-matched rule is
    dropped.  Produce a topological ordering; rules with no dependency
    relationship execute in their declaration order.  If a matched rule
    carries [lock], its GoalSet is the terminal action for the push and
    no further rule is considered." *)
Definition resolve (rules : list (string * GoalData)) (push : PushEvent)
  : Resolution :=
  let '(kept, l) := untilLock (matched push rules) in
  mkResolution (order (List.length kept) [] kept) l.

(** The goals a resolution sets, in order. *)
Definition goalSet (r : Resolution) : list Goal :=
  List.concat (List.map (fun nr => goalList (goals (snd nr))) (ordered r)).

End Resolver.

(** ** GoalExecutor *)

Inductive Step :=
| ListenerStep (goal name : string)
| ActionStep (goal : string).

Inductive Event :=
| Transition (goal : string) (st : SdmGoalState.t)
| Invoked (s : Step).

Record ExecState := mkExec {
  world : World;
  trace : list Event;
  results : gmap string SdmGoalState.t
}.

Module Executor.

(** The steps of a goal: its listeners, then its action. *)
Definition steps (g : Goal) : list Step :=
  List.map (fun l => ListenerStep (displayName g) (listenerName l))
           (projectListeners g)
  ++ [ActionStep (displayName g)].

Definition plan (r : GoalData) : list Step :=
  List.concat (List.map steps (goalList (goals r))).

(** Modelled from the spec: how the executor reads the object an action
    returns.  A result that carries a state has that state; the failure
    result of the spec is the one "with code 1", so a result without a
    state is a failure exactly when its code is not zero. *)
Definition goalResultState (r : ExecuteGoalResult) : SdmGoalState.t :=
  match state r with
  | Some st => st
  | None =>
      match code r with
      | Some 0 | None => SdmGoalState.success
      | Some _ => SdmGoalState.failure
      end
  end.

(** What the executor makes of the completion of an action: what the
    action throws is caught and is a failure. *)
Definition outcomeState (o : Outcome ExecuteGoalResult) : SdmGoalState.t :=
  match o with
  | Returned r => goalResultState r
  | Threw _ => SdmGoalState.failure
  end.

Fixpoint runListeners (gi : GoalInvocation) (goal : string)
    (ls : list ProjectListener) (w : World) (tr : list Event)
  : bool * World * list Event :=
  match ls with
  | [] => (true, w, tr)
  | l :: ls' =>
      let tr' := tr ++ [Invoked (ListenerStep goal (listenerName l))] in
      match listener l gi w with
      | (Returned _, w') => runListeners gi goal ls' w' tr'
      | (Threw _, w') => (false, w', tr')
      end
  end.

(** One goal: [in_process], the listeners, the action, the terminal
    state.  A listener that throws fails the goal before its action. *)
Definition executeGoal (gi : GoalInvocation) (g : Goal)
    (w : World) (tr : list Event)
  : SdmGoalState.t * World * list Event :=
  let name := displayName g in
  let tr0 := tr ++ [Transition name SdmGoalState.in_process] in
  match runListeners gi name (projectListeners g) w tr0 with
  | (false, w1, tr1) =>
      (SdmGoalState.failure, w1,
       tr1 ++ [Transition name SdmGoalState.failure])
  | (true, w1, tr1) =>
      let '(o, w2) := goalExecutor g gi w1 in
      let st := outcomeState o in
      (st, w2, tr1 ++ [Invoked (ActionStep name); Transition name st])
  end.

(** The goals of one goal set, strictly in sequence; the first goal
    that does not succeed halts the remainder. *)
Fixpoint executeGoals (gi : GoalInvocation) (gs : list Goal)
    (w : World) (tr : list Event)
  : SdmGoalState.t * World * list Event :=
  match gs with
  | [] => (SdmGoalState.success, w, tr)
  | g :: gs' =>
      match executeGoal gi g w tr with
      | (SdmGoalState.success, w', tr') => executeGoals gi gs' w' tr'
      | (_, w', tr') => (SdmGoalState.failure, w', tr')
      end
  end.

Definition dependencyMet (res : gmap string SdmGoalState.t) (r : GoalData)
  : bool :=
  match dependsOn r with
  | None => true
  | Some d =>
      match res !! d with
      | Some SdmGoalState.success => true
      | _ => false
      end
  end.

(** Modelled from the spec: the executor, which [@atomist/sdm]
    implements and [src/] does not.  "A rule's GoalSet only begins
    execution once every rule it depends on has reached an overall
    success state; if a dependency's GoalSet ends in failure, the
    dependent GoalSet is skipped entirely (not attempted, not marked
    failure - simply never scheduled).  Execution of goals within one
    GoalSet is strictly sequential." *)
Fixpoint execute (gi : GoalInvocation) (sets : list (string * GoalData))
    (s : ExecState) : ExecState :=
  match sets with
  | [] => s
  | (name, r) :: rest =>
      if dependencyMet (results s) r then
        let '(st, w', tr') :=
          executeGoals gi (goalList (goals r)) (world s) (trace s) in
        execute gi rest (mkExec w' tr' (<[name := st]> (results s)))
      else execute gi rest s
  end.

Definition invocationOf (push : PushEvent) : GoalInvocation :=
  mkGoalInvocation (mkGoalEvent (commit push)).

(** A push from its arrival to the end of its goals. *)
Definition handlePush (rules : list (string * GoalData)) (push : PushEvent)
    (w : World) : ExecState :=
  execute (invocationOf push) (ordered (Resolver.resolve rules push))
          (mkExec w [] ∅).

(** How often the action of the goal named [goal] was invoked. *)
Definition invocations (goal : string) (tr : list Event) : nat :=
  List.length
    (List.filter
       (fun e => match e with
                 | Invoked (ActionStep g) => String.eqb g goal
                 | _ => false
                 end) tr).

(** Whether an event belongs to the goal named [goal]. *)
Definition concerns (goal : string) (e : Event) : bool :=
  match e with
  | Transition g _ => String.eqb g goal
  | Invoked (ListenerStep g _) => String.eqb g goal
  | Invoked (ActionStep g) => String.eqb g goal
  end.

End Executor.

(** ** A sample machine and two sample pushes *)

Module Sample.

Definition helpers : Slack.Helpers :=
  Slack.mkHelpers (fun s => "`" +:+ s +:+ "`") (fun s => "<" +:+ s +:+ ">").

(** Ports below 8003 are taken, every command exits with [status] and
    every message is delivered unless [undeliverable]; the Maven build
    reports [buildCode]. *)
Definition machine (status buildCode : Z) (undeliverable : bool) : Externals :=
  mkExternals helpers
    (fun p => Z.leb 8003 p)
    (fun _ _ => Exited status "BUILD")
    (fun o => match o with
              | Exited c out => "exit " +:+ Str.ofNumber c +:+ ": " +:+ out
              | SpawnFailed r => r
              end)
    (fun _ => if undeliverable then Some (mkError "channel closed") else None)
    (fun _ => ret (mkResult None (Some buildCode) None))
    (fun _ => ret tt).

Definition world : World := mkWorld [] [] ∅ [].

Definition withoutPom : PushEvent :=
  mkPush "atomist-seeds/spring-rest" "0123456789abcdef" {["README.md"]}.

Definition withPom : PushEvent :=
  mkPush "atomist-seeds/spring-rest" "0123456789abcdef"
         ({["README.md"]} ∪ {["pom.xml"]}).

End Sample.

(** ** A machine without a free port *)

Module Scenario.

(** Like [Sample.machine 0 0 false], but every port is taken. *)
Definition crowded : Externals :=
  mkExternals Sample.helpers
    (fun _ => false)
    (fun _ _ => Exited 0 "BUILD")
    (fun _ => "failed")
    (fun _ => None)
    (fun _ => ret (mkResult None (Some 0) None))
    (fun _ => ret tt).

End Scenario.

(** The entry the [catch] branch writes for the message [m]. *)
Definition failureEntry (m : string) : LogEntry :=
  mkLogEntry "Container run command failed: %s" [m].

(** The result of the [try] branch for the port [p]. *)
Definition successOn (p : Z) : ExecuteGoalResult :=
  mkResult (Some SdmGoalState.success) None
           (Some [mkExternalUrl "http" (appUrlOf p)]).

(** * Properties *)

(** ** Strings and URLs *)

Lemma forallb_span (P stop : ascii -> bool) (s : string) :
  (forall a, P a = true -> stop a = false) ->
  Str.forallb P s = true -> Str.span stop s = (s, EmptyString).
Proof.
  intros HP. induction s as [|a s IH]; simpl; [reflexivity|].
  intros [Ha Hs]%andb_prop. rewrite (HP a Ha), (IH Hs). reflexivity.
Qed.

Lemma forallb_cutLast (P : ascii -> bool) (sep : ascii) (s : string) :
  P sep = false -> Str.forallb P s = true -> Str.cutLast sep s = None.
Proof.
  intros Hsep. induction s as [|a s IH]; simpl; [reflexivity|].
  intros [Ha Hs]%andb_prop. rewrite (IH Hs).
  destruct (Ascii.eqb_spec a sep) as [->|_]; [congruence | reflexivity].
Qed.

Lemma digits_string_of_uint (d : Decimal.uint) :
  Str.forallb Str.isDigit (NilEmpty.string_of_uint d) = true.
Proof. induction d; simpl; auto. Qed.

Lemma digits_ofNumber (z : Z) :
  0 <= z -> Str.forallb Str.isDigit (Str.ofNumber z) = true.
Proof.
  intros Hz. unfold Str.ofNumber. destruct z as [|p|p]; [reflexivity| |lia].
  simpl. unfold NilZero.string_of_uint.
  destruct (Pos.to_uint p); auto using digits_string_of_uint.
  all: apply (digits_string_of_uint (_ _)).
Qed.

Lemma toNumber_ofNumber (z : Z) : Str.toNumber (Str.ofNumber z) = Some z.
Proof.
  unfold Str.toNumber, Str.ofNumber. rewrite NilZero.isi.
  - now rewrite DecimalZ.of_to.
  - destruct z; simpl; try discriminate.
    intros [= H]. now apply Unsigned.to_uint_nonnil in H.
  - destruct z; simpl; try discriminate.
    intros [= H]. now apply Unsigned.to_uint_nonnil in H.
Qed.

Lemma slice_prefix (n : nat) (s : string) :
  Str.prefixb (Str.slice 0 n s) s = true /\
  String.length (Str.slice 0 n s) = Nat.min n (String.length s).
Proof.
  unfold Str.slice. rewrite Nat.sub_0_r. revert s.
  induction n as [|n IH]; intros [|a s]; simpl; auto.
  destruct (IH s) as [Hp Hl]. rewrite Ascii.eqb_refl, Hp, Hl. auto.
Qed.

Example parse_docker :
  UrlParser.parse "tcp://1.2.3.4:2376" = Some (mkURL "tcp:" "1.2.3.4" "2376" "").
Proof. reflexivity. Qed.

Example parse_local :
  UrlParser.parse "http://localhost:8000" = Some (mkURL "http:" "localhost" "8000" "").
Proof. reflexivity. Qed.

Lemma forallb_weaken (P Q : ascii -> bool) (s : string) :
  (forall a, P a = true -> Q a = true) ->
  Str.forallb P s = true -> Str.forallb Q s = true.
Proof.
  intros HPQ. induction s as [|a s IH]; simpl; [reflexivity|].
  intros [Ha Hs]%andb_prop. now rewrite (HPQ a Ha), (IH Hs).
Qed.

(** The application URL parses into host [localhost] and the port it was
    built from. *)
Lemma parse_appUrlOf (p : Z) :
  0 <= p ->
  UrlParser.parse (appUrlOf p)
  = Some (mkURL "http:" "localhost" (Str.ofNumber p) EmptyString).
Proof.
  intros Hp. pose proof (digits_ofNumber p Hp) as Hd.
  unfold appUrlOf. generalize dependent (Str.ofNumber p). intros ds Hd.
  assert (Hspan : Str.span UrlParser.endsAuthority ds = (ds, EmptyString)).
  { apply (forallb_span Str.isDigit); [|exact Hd].
    intros a. destruct a as [[] [] [] [] [] [] [] []]; vm_compute; congruence. }
  pose proof (forallb_cutLast Str.isDigit "@" ds eq_refl Hd) as Hat.
  pose proof (forallb_cutLast Str.isDigit ":" ds eq_refl Hd) as Hcolon.
  unfold UrlParser.parse. simpl. change (EmptyString +:+ ds) with ds.
  rewrite Hspan.
  unfold UrlParser.parseAuthority, UrlParser.dropUserinfo. simpl.
  rewrite Hat. simpl. rewrite Hcolon. simpl. now rewrite Hd.
Qed.

(** ** [readDockerHost] *)

(** C5: with [DOCKER_HOST] unset the accessor throws an error whose
    message names the variable; with [DOCKER_HOST] set to
    [tcp://1.2.3.4:2376] it returns the host [1.2.3.4] and nothing else. *)
Theorem readDockerHost_unset_and_set (env : gmap string string) :
  (exists e,
     readDockerHost UrlParser.newURL (delete "DOCKER_HOST" env) = Threw e /\
     Str.includes "DOCKER_HOST" (message e) = true) /\
  readDockerHost UrlParser.newURL (<["DOCKER_HOST" := "tcp://1.2.3.4:2376"]> env)
  = Returned (StringValue "1.2.3.4").
Proof.
  unfold readDockerHost. rewrite lookup_delete_eq, lookup_insert_eq. split.
  - eexists. split; reflexivity.
  - reflexivity.
Qed.

(** C10: a normal return of [readDockerHost] carries a string, never
    [undefined], whatever the [URL] constructor does. *)
Theorem readDockerHost_returns_string (construct : string -> Outcome URL)
    (env : gmap string string) (v : StringOrUndefined) :
  readDockerHost construct env = Returned v ->
  v <> Undefined /\
  exists d u, env !! "DOCKER_HOST" = Some d /\ construct d = Returned u /\
              v = StringValue (hostname u).
Proof.
  unfold readDockerHost.
  destruct (env !! "DOCKER_HOST") as [[|a d]|]; try discriminate.
  destruct (construct (String a d)) as [u|e] eqn:Hu; try discriminate.
  intros [= <-]. split; [discriminate|]. eauto.
Qed.

Lemma readDockerHost_returns_string_witness :
  readDockerHost UrlParser.newURL {["DOCKER_HOST" := "tcp://1.2.3.4:2376"]}
  = Returned (StringValue "1.2.3.4") /\
  StringValue "1.2.3.4" <> Undefined.
Proof.
  assert (H : readDockerHost UrlParser.newURL
                {["DOCKER_HOST" := "tcp://1.2.3.4:2376"]}
              = Returned (StringValue "1.2.3.4")) by reflexivity.
  split; [exact H|].
  exact (proj1 (readDockerHost_returns_string _ _ _ H)).
Defined.

(** ** Push tests *)


(** On a snapshot that cannot be read, [not(hasFile(path))] throws what
    the read throws: the test is total on readable snapshots only. *)
Lemma evaluate_unreadable (read : M (gset string)) (w w' : World) (e : Error)
    (path : string) :
  read w = (Threw e, w') ->
  PredicateEvaluator.evaluate read (PushTest.not (PushTest.hasFile path)) w
  = (Threw e, w').
Proof.
  intros Hread. cbn [PredicateEvaluator.evaluate]. unfold bind.
  now rewrite Hread.
Qed.



(** ** PortAllocator *)

Lemma world_eta (w : World) :
  mkWorld (progressLog w) (channel w) (bound w) (spawned w) = w.
Proof. now destruct w. Qed.

Lemma bindable_unbound (ext : Externals) (w : World) (p : Z) :
  PortAllocator.bindable ext w p = true -> p ∉ bound w.
Proof.
  unfold PortAllocator.bindable. intros [_ H]%andb_prop.
  now apply negb_true_iff, bool_decide_eq_false in H.
Qed.

(** One step of the scan: a bindable candidate is bound, released and
    returned, which leaves the world as it was. *)
Lemma scanFrom_step (ext : Externals) (w : World) (p : Z) (n : nat) :
  PortAllocator.scanFrom ext p (S n) w =
  if PortAllocator.bindable ext w p then (Returned p, w)
  else PortAllocator.scanFrom ext (p + 1) n w.
Proof.
  cbn [PortAllocator.scanFrom]. unfold bind, PortAllocator.tryBind.
  destruct (PortAllocator.bindable ext w p) eqn:Hb; [|reflexivity].
  unfold PortAllocator.release, ret. cbn.
  apply bindable_unbound in Hb.
  assert (({[p]} ∪ bound w) ∖ {[p]} = bound w) as ->.
  { apply set_eq. intros x.
    rewrite elem_of_difference, elem_of_union, elem_of_singleton.
    split; [tauto|]. intros Hx. split; [tauto|]. congruence. }
  now rewrite world_eta.
Qed.

(** What a scan returns: the first bindable candidate, with the world
    unchanged. *)
Lemma scanFrom_returned (ext : Externals) (w : World) (n : nat) :
  forall p q w',
    PortAllocator.scanFrom ext p n w = (Returned q, w') ->
    p <= q < p + Z.of_nat n /\
    PortAllocator.bindable ext w q = true /\
    (forall r, p <= r < q -> PortAllocator.bindable ext w r = false) /\
    w' = w.
Proof.
  induction n as [|n IH]; intros p q w'.
  - discriminate.
  - rewrite scanFrom_step.
    destruct (PortAllocator.bindable ext w p) eqn:Hb.
    + intros [= <- <-]. repeat split; try lia. done.
    + intros H. destruct (IH _ _ _ H) as (Hr & Hq & Hfirst & ->).
      repeat split; try lia; [done|].
      intros r Hrange. destruct (Z.eq_dec r p) as [->|]; [done|].
      apply Hfirst. lia.
Qed.

(** A scan fails only with [PortUnavailable], when no candidate can be
    bound. *)
Lemma scanFrom_threw (ext : Externals) (w : World) (n : nat) :
  forall p e w',
    PortAllocator.scanFrom ext p n w = (Threw e, w') ->
    e = PortAllocator.PortUnavailable /\
    (forall r, p <= r < p + Z.of_nat n -> PortAllocator.bindable ext w r = false) /\
    w' = w.
Proof.
  induction n as [|n IH]; intros p e w'.
  - intros [= <- <-]. repeat split. lia.
  - rewrite scanFrom_step.
    destruct (PortAllocator.bindable ext w p) eqn:Hb; [discriminate|].
    intros H. destruct (IH _ _ _ H) as (-> & Hnone & ->).
    repeat split.
    intros r Hrange. destruct (Z.eq_dec r p) as [->|]; [done|].
    apply Hnone. lia.
Qed.

(** A scan over a range that holds a bindable port returns. *)
Lemma scanFreePort_returns (ext : Externals) (w : World) (low high r : Z) :
  low <= r <= high -> PortAllocator.bindable ext w r = true ->
  exists q, PortAllocator.scanFreePort ext low high w = (Returned q, w).
Proof.
  intros Hr Hb. unfold PortAllocator.scanFreePort.
  destruct (PortAllocator.scanFrom ext low (Z.to_nat (high - low + 1)) w)
    as [[q|e] w'] eqn:Hscan.
  - apply scanFrom_returned in Hscan as (_ & _ & _ & ->). eauto.
  - apply scanFrom_threw in Hscan as (_ & Hnone & _).
    rewrite Hnone in Hb by lia. discriminate.
Qed.

(** C7: a successful [scanFreePort(8000, 8100)] returns a port between
    8000 and 8100, the first one of the scan from low to high that can
    be bound; the bind is released, so the world is as before the scan
    and the port can be bound again. *)
Theorem scanFreePort_8000_8100 (ext : Externals) (w w' : World) (p : Z) :
  PortAllocator.scanFreePort ext 8000 8100 w = (Returned p, w') ->
  8000 <= p <= 8100 /\
  PortAllocator.bindable ext w p = true /\
  (forall q, 8000 <= q < p -> PortAllocator.bindable ext w q = false) /\
  w' = w /\
  fst (PortAllocator.tryBind ext p w') = Returned true.
Proof.
  unfold PortAllocator.scanFreePort. intros H.
  apply scanFrom_returned in H as (Hr & Hb & Hfirst & ->).
  repeat split; try lia; try done.
  unfold PortAllocator.tryBind. now rewrite Hb.
Qed.

Lemma scanFreePort_8000_8100_witness :
  PortAllocator.scanFreePort (Sample.machine 0 0 false) 8000 8100 Sample.world
  = (Returned 8003, Sample.world) /\
  8000 <= 8003 <= 8100.
Proof.
  assert (H : PortAllocator.scanFreePort (Sample.machine 0 0 false) 8000 8100
                Sample.world = (Returned 8003, Sample.world))
    by (vm_compute; reflexivity).
  split; [exact H|].
  exact (proj1 (scanFreePort_8000_8100 _ _ _ _ H)).
Defined.

(** ** The [maven spring boot run] action *)

(** The action after a scan that returned [p]: the [try] block run in
    the unchanged world. *)
Lemma run_action_after_scan (ext : Externals) (gi : GoalInvocation)
    (w w1 : World) (p : Z) :
  PortAllocator.scanFreePort ext 8000 8100 w = (Returned p, w1) ->
  w1 = w /\ 8000 <= p <= 8100 /\
  mavenSpringBootRun_action ext gi w =
  tryCatch
    (bind! result := execPromise ext "mvn" (runArguments p) in
     run! addressChannels ext (successMessage ext gi (appUrlOf p)) in
     ret (mkResult (Some SdmGoalState.success) None
            (Some [mkExternalUrl "http" (appUrlOf p)])))
    (fun e =>
       run! progressLog_write "Container run command failed: %s" [message e] in
       ret codeOne) w.
Proof.
  intros Hscan. pose proof Hscan as Hscan'.
  apply scanFrom_returned in Hscan' as (Hp & _ & _ & ->).
  repeat split; try lia.
  unfold mavenSpringBootRun_action, bind at 1. now rewrite Hscan.
Qed.

(** C1: when the spawned process exits nonzero or cannot be spawned, the
    action returns [{ code: 1 }], a failure for the executor, after
    writing the message of the caught error to the progress log; nothing
    is thrown to the executor. *)
Theorem run_failure_is_caught (ext : Externals) (gi : GoalInvocation)
    (w w1 : World) (p : Z) :
  PortAllocator.scanFreePort ext 8000 8100 w = (Returned p, w1) ->
  (exists c out, processOutcome ext "mvn" (runArguments p) = Exited c out /\ c <> 0)
  \/ (exists reason, processOutcome ext "mvn" (runArguments p) = SpawnFailed reason) ->
  exists e w2,
    execPromise ext "mvn" (runArguments p) w1 = (Threw e, w2) /\
    mavenSpringBootRun_action ext gi w =
      (Returned codeOne,
       mkWorld
         (progressLog w
          ++ [mkLogEntry "Container run command failed: %s" [message e]])
         (channel w) (bound w) (spawned w ++ [("mvn", runArguments p)])) /\
    code codeOne = Some 1 /\
    Executor.goalResultState codeOne = SdmGoalState.failure.
Proof.
  intros Hscan Hfail.
  destruct (run_action_after_scan ext gi _ _ _ Hscan) as (-> & _ & ->).
  unfold tryCatch, bind at 1, execPromise.
  destruct Hfail as [(c & out & -> & Hc) | (reason & ->)].
  - destruct c as [|c|c]; [congruence| |]; eexists _, _; repeat split.
  - eexists _, _; repeat split.
Qed.

Lemma run_failure_is_caught_witness :
  fst (mavenSpringBootRun_action (Sample.machine 1 0 false)
         (Executor.invocationOf Sample.withPom) Sample.world)
  = Returned codeOne.
Proof.
  destruct (run_failure_is_caught (Sample.machine 1 0 false)
              (Executor.invocationOf Sample.withPom)
              Sample.world Sample.world 8003)
    as (e & w2 & _ & H & _).
  - vm_compute; reflexivity.
  - left. exists 1, "BUILD". split; [reflexivity | lia].
  - rewrite H. reflexivity.
Defined.

(** Exit code 0 alone does not make the action succeed: the notification
    is sent inside the [try] block, and when it cannot be delivered the
    [catch] branch returns [{ code: 1 }]. *)
Lemma run_exit0_undelivered :
  ~ (forall (ext : Externals) (gi : GoalInvocation) (w w1 : World) (p : Z),
        PortAllocator.scanFreePort ext 8000 8100 w = (Returned p, w1) ->
        (exists out, processOutcome ext "mvn" (runArguments p) = Exited 0 out) ->
        succeedsOnPort (fst (mavenSpringBootRun_action ext gi w)) p).
Proof.
  intros Hclaim.
  destruct (Hclaim (Sample.machine 0 0 true)
              (Executor.invocationOf Sample.withPom)
              Sample.world Sample.world 8003)
    as (r & u & x & Hr & Hstate & _).
  - vm_compute; reflexivity.
  - exists "BUILD". reflexivity.
  - vm_compute in Hr. injection Hr as <-. discriminate Hstate.
Qed.

(** C4, amended: when the spawned process exits with code 0 and the
    success notification is delivered, the action returns state
    [success] with exactly one external URL, [http://localhost:<p>] for
    the port [p] the scan allocated; that URL's port is [p]. *)
Theorem run_exit0_delivered (ext : Externals) (gi : GoalInvocation)
    (w w1 : World) (p : Z) (out : string) :
  PortAllocator.scanFreePort ext 8000 8100 w = (Returned p, w1) ->
  processOutcome ext "mvn" (runArguments p) = Exited 0 out ->
  delivery ext (successMessage ext gi (appUrlOf p)) = None ->
  mavenSpringBootRun_action ext gi w =
    (Returned (mkResult (Some SdmGoalState.success) None
                 (Some [mkExternalUrl "http" (appUrlOf p)])),
     mkWorld (progressLog w)
             (channel w ++ [successMessage ext gi (appUrlOf p)])
             (bound w) (spawned w ++ [("mvn", runArguments p)])) /\
  succeedsOnPort (fst (mavenSpringBootRun_action ext gi w)) p.
Proof.
  intros Hscan Hexit Hsent.
  destruct (run_action_after_scan ext gi _ _ _ Hscan) as (-> & Hp & Hrun).
  assert (Heq : mavenSpringBootRun_action ext gi w =
    (Returned (mkResult (Some SdmGoalState.success) None
                 (Some [mkExternalUrl "http" (appUrlOf p)])),
     mkWorld (progressLog w)
             (channel w ++ [successMessage ext gi (appUrlOf p)])
             (bound w) (spawned w ++ [("mvn", runArguments p)]))).
  { rewrite Hrun. unfold tryCatch, bind at 1, execPromise. rewrite Hexit.
    unfold bind, addressChannels. cbn [progressLog channel bound spawned].
    rewrite Hsent. reflexivity. }
  split; [exact Heq|]. rewrite Heq. cbn [fst].
  eexists _, _, _. repeat split.
  - cbn [url]. apply parse_appUrlOf. lia.
  - unfold UrlParser.portNumber. cbn [port]. apply toNumber_ofNumber.
Qed.

Lemma run_exit0_delivered_witness :
  succeedsOnPort
    (fst (mavenSpringBootRun_action (Sample.machine 0 0 false)
            (Executor.invocationOf Sample.withPom) Sample.world)) 8003.
Proof.
  apply (run_exit0_delivered (Sample.machine 0 0 false)
           (Executor.invocationOf Sample.withPom)
           Sample.world Sample.world 8003 "BUILD").
  - vm_compute; reflexivity.
  - reflexivity.
  - reflexivity.
Defined.

(** C9: when the action completes with success, the channel has received
    one message more, whose text carries the code-formatted first seven
    characters of the commit and the link to the application URL; that
    URL is the one of the single entry of [externalUrls]. *)
Theorem run_success_message (ext : Externals) (gi : GoalInvocation)
    (w w' : World) (r : ExecuteGoalResult) :
  mavenSpringBootRun_action ext gi w = (Returned r, w') ->
  Executor.goalResultState r = SdmGoalState.success ->
  exists appUrl short,
    externalUrls r = Some [mkExternalUrl "http" appUrl] /\
    channel w' =
      channel w ++
      [mkSlackMessage "Maven Spring Boot Run"
         ("Successfully started " +:+ Slack.codeLine (slack ext) short
          +:+ " at " +:+ Slack.url (slack ext) appUrl)] /\
    short = Str.slice 0 7 (sha (goalEvent gi)) /\
    Str.prefixb short (sha (goalEvent gi)) = true /\
    String.length short = Nat.min 7 (String.length (sha (goalEvent gi))).
Proof.
  intros Hrun Hsuccess.
  destruct (PortAllocator.scanFreePort ext 8000 8100 w) as [[p|e] w1] eqn:Hscan.
  2:{ unfold mavenSpringBootRun_action, bind at 1 in Hrun.
      rewrite Hscan in Hrun. discriminate. }
  destruct (run_action_after_scan ext gi _ _ _ Hscan) as (-> & _ & Heq).
  rewrite Heq in Hrun. clear Heq.
  unfold tryCatch, bind at 1, execPromise in Hrun.
  assert (Hcaught : forall (e : Error) (v : World),
             (run! progressLog_write "Container run command failed: %s" [message e]
              in ret codeOne) v = (Returned r, w') -> False).
  { intros e v [= <- _]. discriminate Hsuccess. }
  destruct (processOutcome ext "mvn" (runArguments p)) as [[|c|c] out|reason];
    try (now apply Hcaught in Hrun).
  unfold bind at 1, addressChannels in Hrun.
  cbn [progressLog channel bound spawned] in Hrun.
  destruct (delivery ext _) as [e|] eqn:Hsent; [now apply Hcaught in Hrun|].
  injection Hrun as <- <-.
  exists (appUrlOf p), (Str.slice 0 7 (sha (goalEvent gi))).
  destruct (slice_prefix 7 (sha (goalEvent gi))) as [Hpre Hlen].
  repeat split; assumption.
Qed.

Lemma run_success_message_witness :
  channel (snd (mavenSpringBootRun_action (Sample.machine 0 0 false)
                  (Executor.invocationOf Sample.withPom) Sample.world))
  = [mkSlackMessage "Maven Spring Boot Run"
       "Successfully started `0123456` at <http://localhost:8003>"].
Proof.
  destruct (run_success_message (Sample.machine 0 0 false)
              (Executor.invocationOf Sample.withPom) Sample.world
              (snd (mavenSpringBootRun_action (Sample.machine 0 0 false)
                      (Executor.invocationOf Sample.withPom) Sample.world))
              (mkResult (Some SdmGoalState.success) None
                 (Some [mkExternalUrl "http" "http://localhost:8003"])))
    as (appUrl & short & Hurls & Hchannel & -> & _).
  - vm_compute; reflexivity.
  - reflexivity.
  - injection Hurls as <-. rewrite Hchannel. reflexivity.
Defined.

(** ** Rule resolution *)

Lemma resolve_without_pom (ext : Externals) (push : PushEvent) :
  "pom.xml" ∉ snapshot push ->
  Resolver.resolve (configuration ext) push =
  mkResolution
    [("no_goals",
      mkGoalData (Some (PushTest.not (PushTest.hasFile "pom.xml")))
                 (andLock DoNotSetAnyGoals) None)]
    true.
Proof.
  intros Hpom. unfold Resolver.resolve, Resolver.matched, configuration.
  cbn [List.filter Resolver.applies test snd PushTest.eval].
  now rewrite (bool_decide_eq_false_2 _ Hpom).
Qed.

Lemma resolve_with_pom (ext : Externals) (push : PushEvent) :
  "pom.xml" ∈ snapshot push ->
  Resolver.resolve (configuration ext) push =
  mkResolution
    [("build", mkGoalData None (goalArray [buildGoal ext]) None);
     ("run", mkGoalData None (goalArray [mavenSpringBootRun ext]) (Some "build"))]
    false.
Proof.
  intros Hpom. unfold Resolver.resolve, Resolver.matched, configuration.
  cbn [List.filter Resolver.applies test snd PushTest.eval].
  now rewrite (bool_decide_eq_true_2 _ Hpom).
Qed.

(** ** Execution *)

Lemma runListeners_trace (gi : GoalInvocation) (goal : string)
    (ls : list ProjectListener) :
  forall w tr ok w' tr',
    Executor.runListeners gi goal ls w tr = (ok, w', tr') ->
    exists evs, tr' = tr ++ evs /\
                Forall (fun e => Executor.concerns goal e = true) evs /\
                Executor.invocations goal evs = 0%nat.
Proof.
  induction ls as [|l ls IH]; intros w tr ok w' tr'; cbn [Executor.runListeners].
  - intros [= <- <- <-]. exists []. rewrite app_nil_r. repeat constructor.
  - destruct (listener l gi w) as [[[]|e] w1].
    + intros H. destruct (IH _ _ _ _ _ H) as (evs & -> & Hall & Hinv).
      exists (Invoked (ListenerStep goal (listenerName l)) :: evs).
      rewrite <- app_assoc. repeat split; [|exact Hinv].
      constructor; [apply String.eqb_refl | exact Hall].
    + intros [= <- <- <-]. eexists. repeat split.
      repeat constructor. apply String.eqb_refl.
Qed.

(** A goal only adds events of its own to the trace, and its action is
    invoked at most once. *)
Lemma executeGoal_trace (gi : GoalInvocation) (g : Goal) (w : World)
    (tr : list Event) (st : SdmGoalState.t) (w' : World) (tr' : list Event) :
  Executor.executeGoal gi g w tr = (st, w', tr') ->
  exists evs, tr' = tr ++ Transition (displayName g) SdmGoalState.in_process :: evs /\
              Forall (fun e => Executor.concerns (displayName g) e = true) evs.
Proof.
  unfold Executor.executeGoal.
  destruct (Executor.runListeners _ _ _ _ _) as [[ok w1] tr1] eqn:Hls.
  apply runListeners_trace in Hls as (evs & -> & Hall & _).
  destruct ok.
  - destruct (goalExecutor g gi w1) as [o w2]. intros [= <- <- <-].
    exists (evs ++ [Invoked (ActionStep (displayName g));
                    Transition (displayName g) (Executor.outcomeState o)]).
    rewrite <- !app_assoc. split; [reflexivity|].
    apply Forall_app. split; [exact Hall|].
    repeat constructor; apply String.eqb_refl.
  - intros [= <- <- <-].
    exists (evs ++ [Transition (displayName g) SdmGoalState.failure]).
    rewrite <- !app_assoc. split; [reflexivity|].
    apply Forall_app. split; [exact Hall|].
    repeat constructor; apply String.eqb_refl.
Qed.

(** The build goal: [in_process], the version listener, then the Maven
    builder and the state it ends in. *)
Lemma executeGoal_build (ext : Externals) (gi : GoalInvocation) (w : World)
    (tr : list Event) :
  Executor.executeGoal gi (buildGoal ext) w tr =
  match MvnVersion ext gi w with
  | (Returned _, w1) =>
      let '(o, w2) := mavenBuilder ext gi w1 in
      (Executor.outcomeState o, w2,
       tr ++ [Transition "maven build" SdmGoalState.in_process;
              Invoked (ListenerStep "maven build" "MvnVersion");
              Invoked (ActionStep "maven build");
              Transition "maven build" (Executor.outcomeState o)])
  | (Threw _, w1) =>
      (SdmGoalState.failure, w1,
       tr ++ [Transition "maven build" SdmGoalState.in_process;
              Invoked (ListenerStep "maven build" "MvnVersion");
              Transition "maven build" SdmGoalState.failure])
  end.
Proof.
  unfold Executor.executeGoal, buildGoal.
  cbn [displayName projectListeners goalExecutor Executor.runListeners
       listener listenerName].
  destruct (MvnVersion ext gi w) as [[[]|e] w1].
  - destruct (mavenBuilder ext gi w1) as [o w2]. now rewrite <- !app_assoc.
  - now rewrite <- !app_assoc.
Qed.

(** The run goal: [in_process], then the action and the state it ends
    in. *)
Lemma executeGoal_run (ext : Externals) (gi : GoalInvocation) (w : World)
    (tr : list Event) :
  Executor.executeGoal gi (mavenSpringBootRun ext) w tr =
  let '(o, w2) := mavenSpringBootRun_action ext gi w in
  (Executor.outcomeState o, w2,
   tr ++ [Transition "maven spring boot run" SdmGoalState.in_process;
          Invoked (ActionStep "maven spring boot run");
          Transition "maven spring boot run" (Executor.outcomeState o)]).
Proof.
  unfold Executor.executeGoal, mavenSpringBootRun.
  cbn [displayName projectListeners goalExecutor Executor.runListeners].
  destruct (mavenSpringBootRun_action ext gi w) as [o w2].
  now rewrite <- !app_assoc.
Qed.

(** A push without [pom.xml]: nothing runs. *)
Lemma handlePush_without_pom (ext : Externals) (push : PushEvent) (w : World) :
  "pom.xml" ∉ snapshot push ->
  Executor.handlePush (configuration ext) push w =
  mkExec w [] (<["no_goals" := SdmGoalState.success]> ∅).
Proof.
  intros Hpom. unfold Executor.handlePush.
  now rewrite (resolve_without_pom ext push Hpom).
Qed.

(** A push with [pom.xml]: the build goal set, then the run goal set if
    and only if the build goal set succeeded. *)
Lemma handlePush_with_pom (ext : Externals) (push : PushEvent) (w : World) :
  "pom.xml" ∈ snapshot push ->
  Executor.handlePush (configuration ext) push w =
  let gi := Executor.invocationOf push in
  let '(st, w1, tr1) := Executor.executeGoal gi (buildGoal ext) w [] in
  match st with
  | SdmGoalState.success =>
      let '(st2, w2, tr2) := Executor.executeGoal gi (mavenSpringBootRun ext) w1 tr1 in
      mkExec w2 tr2
        (<["run" := match st2 with
                    | SdmGoalState.success => SdmGoalState.success
                    | _ => SdmGoalState.failure
                    end]> (<["build" := SdmGoalState.success]> ∅))
  | _ => mkExec w1 tr1 (<["build" := SdmGoalState.failure]> ∅)
  end.
Proof.
  intros Hpom. unfold Executor.handlePush.
  rewrite (resolve_with_pom ext push Hpom).
  cbn [ordered Executor.execute Executor.dependencyMet dependsOn goals goalList
       goalArray Executor.executeGoals world trace results].
  destruct (Executor.executeGoal _ (buildGoal ext) w []) as [[st w1] tr1].
  destruct st; cbn [world trace results]; rewrite lookup_insert_eq; try reflexivity.
  destruct (Executor.executeGoal _ (mavenSpringBootRun ext) w1 tr1) as [[st2 w2] tr2].
  destruct st2; reflexivity.
Qed.

(** C2: for a push whose snapshot holds no [pom.xml], resolution yields
    the [no_goals] rule alone: an empty goal set, locked.  Handling the
    push invokes nothing, and neither the build nor the run goal set is
    ever scheduled. *)
Theorem no_pom_push_sets_no_goals (ext : Externals) (push : PushEvent) (w : World) :
  "pom.xml" ∉ snapshot push ->
  let res := Resolver.resolve (configuration ext) push in
  let s := Executor.handlePush (configuration ext) push w in
  Resolver.goalSet res = [] /\
  locked res = true /\
  List.map fst (ordered res) = ["no_goals"] /\
  trace s = [] /\
  world s = w /\
  results s !! "build" = None /\
  results s !! "run" = None.
Proof.
  intros Hpom res s. subst res s.
  rewrite (resolve_without_pom ext push Hpom).
  rewrite (handlePush_without_pom ext push w Hpom).
  repeat split.
Qed.

Lemma no_pom_push_sets_no_goals_witness :
  ("pom.xml" ∉ snapshot Sample.withoutPom) /\
  trace (Executor.handlePush (configuration (Sample.machine 0 0 false))
           Sample.withoutPom Sample.world) = [].
Proof.
  assert (H : "pom.xml" ∉ snapshot Sample.withoutPom).
  { apply (bool_decide_unpack _). vm_compute. exact I. }
  split; [exact H|].
  exact (proj1 (proj2 (proj2 (proj2
    (no_pom_push_sets_no_goals (Sample.machine 0 0 false) _ Sample.world H))))).
Defined.

(** C3: when the build goal set of a push ends in failure, the run goal
    set is never scheduled: its action is invoked zero times, no event of
    the run goal occurs, and the run rule has no result. *)
Theorem build_failure_skips_run (ext : Externals) (push : PushEvent) (w : World) :
  let s := Executor.handlePush (configuration ext) push w in
  results s !! "build" = Some SdmGoalState.failure ->
  Executor.invocations "maven spring boot run" (trace s) = 0%nat /\
  Forall (fun e => Executor.concerns "maven spring boot run" e = false) (trace s) /\
  results s !! "run" = None.
Proof.
  intros s. subst s.
  destruct (decide ("pom.xml" ∈ snapshot push)) as [Hpom|Hpom].
  2:{ rewrite (handlePush_without_pom ext push w Hpom). discriminate. }
  rewrite (handlePush_with_pom ext push w Hpom). cbv zeta.
  rewrite executeGoal_build.
  destruct (MvnVersion ext _ w) as [[[]|e] w1].
  - destruct (mavenBuilder ext _ w1) as [o w2].
    destruct (Executor.outcomeState o).
    3:{ rewrite executeGoal_run.
        destruct (mavenSpringBootRun_action ext _ w2) as [o2 w3].
        cbn [results]. rewrite lookup_insert_ne, lookup_insert_eq by discriminate.
        discriminate. }
    all: intros _; cbn [results trace app];
      repeat split; repeat constructor.
  - intros _. cbn [results trace app]. repeat split; repeat constructor.
Qed.

Lemma build_failure_skips_run_witness :
  results (Executor.handlePush (configuration (Sample.machine 0 1 false))
             Sample.withPom Sample.world) !! "build"
  = Some SdmGoalState.failure /\
  Executor.invocations "maven spring boot run"
    (trace (Executor.handlePush (configuration (Sample.machine 0 1 false))
              Sample.withPom Sample.world)) = 0%nat.
Proof.
  assert (H : results (Executor.handlePush (configuration (Sample.machine 0 1 false))
                         Sample.withPom Sample.world) !! "build"
              = Some SdmGoalState.failure) by (vm_compute; reflexivity).
  split; [exact H|].
  exact (proj1 (build_failure_skips_run (Sample.machine 0 1 false)
                  Sample.withPom Sample.world H)).
Defined.

(** C6: for a push whose snapshot holds [pom.xml], resolution yields the
    build rule and then the run rule, which depends on it.  The build
    goal runs the version listener first and then the Maven builder; the
    run goal is executed only once the build goal set has ended in
    success, after all events of the build goal. *)
Theorem pom_push_builds_then_runs (ext : Externals) (push : PushEvent) (w : World) :
  "pom.xml" ∈ snapshot push ->
  let res := Resolver.resolve (configuration ext) push in
  let s := Executor.handlePush (configuration ext) push w in
  (exists b r,
     ordered res = [("build", b); ("run", r)] /\
     locked res = false /\
     Executor.plan b = [ListenerStep "maven build" "MvnVersion";
                        ActionStep "maven build"] /\
     Executor.plan r = [ActionStep "maven spring boot run"] /\
     dependsOn b = None /\
     dependsOn r = Some "build") /\
  (exists rest,
     trace s = Transition "maven build" SdmGoalState.in_process
               :: Invoked (ListenerStep "maven build" "MvnVersion") :: rest) /\
  (results s !! "build" <> Some SdmGoalState.success ->
   Executor.invocations "maven spring boot run" (trace s) = 0%nat /\
   results s !! "run" = None) /\
  (results s !! "build" = Some SdmGoalState.success ->
   exists st,
     trace s = [Transition "maven build" SdmGoalState.in_process;
                Invoked (ListenerStep "maven build" "MvnVersion");
                Invoked (ActionStep "maven build");
                Transition "maven build" SdmGoalState.success;
                Transition "maven spring boot run" SdmGoalState.in_process;
                Invoked (ActionStep "maven spring boot run");
                Transition "maven spring boot run" st] /\
     is_Some (results s !! "run")).
Proof.
  intros Hpom res s. subst res s.
  rewrite (resolve_with_pom ext push Hpom).
  split; [eexists _, _; repeat split|].
  rewrite (handlePush_with_pom ext push w Hpom). cbv zeta.
  rewrite executeGoal_build.
  destruct (MvnVersion ext _ w) as [[[]|e] w1].
  - destruct (mavenBuilder ext _ w1) as [o w2].
    destruct (Executor.outcomeState o) eqn:Hst.
    3:{ rewrite executeGoal_run.
        destruct (mavenSpringBootRun_action ext _ w2) as [o2 w3].
        cbn [results trace app].
        rewrite lookup_insert_ne, !lookup_insert_eq by discriminate.
        split; [eexists; reflexivity|].
        split; [congruence|].
        intros _. eexists. split; [reflexivity | eauto]. }
    all: cbn [results trace app]; rewrite lookup_insert_eq;
      (split; [eexists; reflexivity|]);
      (split; [intros _; split; reflexivity | discriminate]).
  - cbn [results trace app]. rewrite lookup_insert_eq.
    split; [eexists; reflexivity|].
    split; [intros _; split; reflexivity | discriminate].
Qed.

Lemma pom_push_builds_then_runs_witness :
  ("pom.xml" ∈ snapshot Sample.withPom) /\
  Executor.invocations "maven spring boot run"
    (trace (Executor.handlePush (configuration (Sample.machine 0 0 false))
              Sample.withPom Sample.world)) = 1%nat.
Proof.
  assert (H : "pom.xml" ∈ snapshot Sample.withPom).
  { apply (bool_decide_unpack _). vm_compute. exact I. }
  split; [exact H|].
  destruct (pom_push_builds_then_runs (Sample.machine 0 0 false)
              Sample.withPom Sample.world H) as (_ & _ & _ & Hok).
  destruct Hok as (st & Htrace & _); [vm_compute; reflexivity|].
  rewrite Htrace. reflexivity.
Defined.

(** * Further properties of the source *)

(** ** Every way the run action can end *)

(** The action, case by case: the scan, then the process, then the
    delivery of the notification. *)
Lemma run_action_cases (ext : Externals) (gi : GoalInvocation) (w : World) :
  match PortAllocator.scanFreePort ext 8000 8100 w with
  | (Threw e, _) =>
      mavenSpringBootRun_action ext gi w = (Threw e, w) /\
      e = PortAllocator.PortUnavailable
  | (Returned p, _) =>
      8000 <= p <= 8100 /\
      PortAllocator.bindable ext w p = true /\
      let cmds := spawned w ++ [("mvn", runArguments p)] in
      match processOutcome ext "mvn" (runArguments p) with
      | Exited 0 _ =>
          match delivery ext (successMessage ext gi (appUrlOf p)) with
          | None =>
              mavenSpringBootRun_action ext gi w =
              (Returned (successOn p),
               mkWorld (progressLog w)
                       (channel w ++ [successMessage ext gi (appUrlOf p)])
                       (bound w) cmds)
          | Some e =>
              mavenSpringBootRun_action ext gi w =
              (Returned codeOne,
               mkWorld (progressLog w ++ [failureEntry (message e)])
                       (channel w) (bound w) cmds)
          end
      | o =>
          mavenSpringBootRun_action ext gi w =
          (Returned codeOne,
           mkWorld (progressLog w ++ [failureEntry (failureMessage ext o)])
                   (channel w) (bound w) cmds)
      end
  end.
Proof.
  destruct (PortAllocator.scanFreePort ext 8000 8100 w) as [[p|e] w1] eqn:Hscan.
  - destruct (run_action_after_scan ext gi _ _ _ Hscan) as (-> & Hp & ->).
    pose proof Hscan as Hb. apply scanFrom_returned in Hb as (_ & Hb & _).
    split; [exact Hp|]. split; [exact Hb|]. cbv zeta.
    unfold tryCatch, bind at 1, execPromise.
    destruct (processOutcome ext "mvn" (runArguments p)) as [[|c|c] out|reason];
      try reflexivity.
    unfold bind, addressChannels. cbn [progressLog channel bound spawned].
    now destruct (delivery ext _).
  - pose proof Hscan as Hw. apply scanFrom_threw in Hw as (-> & _ & ->).
    split; [|reflexivity].
    unfold mavenSpringBootRun_action, bind at 1. now rewrite Hscan.
Qed.

(** X1: the scan stands in front of the [try] block.  When it fails the
    action throws the scan's error instead of returning [{ code: 1 }];
    it spawns nothing, writes nothing to the progress log and sends
    nothing. *)
Theorem run_scan_failure_escapes (ext : Externals) (gi : GoalInvocation)
    (w w1 : World) (e : Error) :
  PortAllocator.scanFreePort ext 8000 8100 w = (Threw e, w1) ->
  mavenSpringBootRun_action ext gi w = (Threw e, w) /\
  fst (mavenSpringBootRun_action ext gi w) <> Returned codeOne /\
  Executor.outcomeState (fst (mavenSpringBootRun_action ext gi w))
  = SdmGoalState.failure.
Proof.
  intros Hscan. pose proof (run_action_cases ext gi w) as Hcases.
  rewrite Hscan in Hcases. destruct Hcases as [Hrun _].
  rewrite Hrun. repeat split. discriminate.
Qed.

Lemma run_scan_failure_escapes_witness :
  mavenSpringBootRun_action Scenario.crowded
    (Executor.invocationOf Sample.withPom) Sample.world
  = (Threw PortAllocator.PortUnavailable, Sample.world).
Proof.
  apply (run_scan_failure_escapes Scenario.crowded
           (Executor.invocationOf Sample.withPom)
           Sample.world Sample.world PortAllocator.PortUnavailable).
  vm_compute; reflexivity.
Defined.



(** X4: a notification that cannot be delivered is handled by the same
    [catch] branch as a failed command.  After exit code 0 the action
    then returns [{ code: 1 }] and logs the channel's error under the
    text [Container run command failed: %s]; no message is sent and no
    URL is reported. *)
Theorem run_undelivered_is_logged (ext : Externals) (gi : GoalInvocation)
    (w w1 : World) (p : Z) (out : string) (e : Error) :
  PortAllocator.scanFreePort ext 8000 8100 w = (Returned p, w1) ->
  processOutcome ext "mvn" (runArguments p) = Exited 0 out ->
  delivery ext (successMessage ext gi (appUrlOf p)) = Some e ->
  mavenSpringBootRun_action ext gi w =
    (Returned codeOne,
     mkWorld (progressLog w ++ [failureEntry (message e)])
             (channel w) (bound w) (spawned w ++ [("mvn", runArguments p)])) /\
  externalUrls codeOne = None /\
  Executor.goalResultState codeOne = SdmGoalState.failure.
Proof.
  intros Hscan Hexit Hsent. pose proof (run_action_cases ext gi w) as Hcases.
  rewrite Hscan in Hcases. destruct Hcases as (_ & _ & Hcases).
  cbv zeta in Hcases. rewrite Hexit, Hsent in Hcases.
  repeat split. exact Hcases.
Qed.

Lemma run_undelivered_is_logged_witness :
  progressLog (snd (mavenSpringBootRun_action (Sample.machine 0 0 true)
                      (Executor.invocationOf Sample.withPom) Sample.world))
  = [failureEntry "channel closed"].
Proof.
  destruct (run_undelivered_is_logged (Sample.machine 0 0 true)
              (Executor.invocationOf Sample.withPom)
              Sample.world Sample.world 8003 "BUILD" (mkError "channel closed"))
    as (Hrun & _).
  - vm_compute; reflexivity.
  - reflexivity.
  - reflexivity.
  - rewrite Hrun. reflexivity.
Defined.

(** ** [readDockerHost] *)

(** X5: the errors of [readDockerHost], for any [URL] constructor.  It
    throws the "not set" error exactly when [DOCKER_HOST] is missing or
    is the empty string; for any other value it throws exactly what the
    constructor throws for that value, unchanged.  Nothing else is
    thrown. *)
Theorem readDockerHost_throws_iff (construct : string -> Outcome URL)
    (env : gmap string string) (e : Error) :
  readDockerHost construct env = Threw e <->
  ((env !! "DOCKER_HOST" = None \/ env !! "DOCKER_HOST" = Some EmptyString) /\
   e = mkError "DOCKER_HOST environment variable not set")
  \/
  (exists d, env !! "DOCKER_HOST" = Some d /\ d <> EmptyString /\
             construct d = Threw e).
Proof.
  unfold readDockerHost.
  destruct (env !! "DOCKER_HOST") as [[|a d]|] eqn:Henv.
  - split.
    + intros [= <-]. left. auto.
    + intros [[_ ->] | (d & [= <-] & Hd & _)]; [reflexivity | congruence].
  - destruct (construct (String a d)) as [u|e'] eqn:Hu; split.
    + discriminate.
    + intros [[[Hnone | Hempty] _] | (d' & [= <-] & _ & Hd)]; congruence.
    + intros [= ->]. right. exists (String a d). repeat split; auto; discriminate.
    + intros [[[Hnone | Hempty] _] | (d' & [= <-] & _ & Hd)]; congruence.
  - split.
    + intros [= <-]. left. auto.
    + intros [[_ ->] | (d & Hd & _)]; [reflexivity | discriminate].
Qed.

(** ** A push from end to end *)

(** X6: when the run rule of a push ends in success, the last message on
    the channel is the success notification for that push: its text names
    the first seven characters of the push's commit and the application
    URL of a port between 8000 and 8100, the same port the last spawned
    command, [mvn spring-boot:run], was given.  The Maven builder and the
    run action were each invoked exactly once. *)
Theorem pom_push_run_success (ext : Externals) (push : PushEvent) (w : World) :
  let s := Executor.handlePush (configuration ext) push w in
  results s !! "run" = Some SdmGoalState.success ->
  "pom.xml" ∈ snapshot push /\
  Executor.invocations "maven build" (trace s) = 1%nat /\
  Executor.invocations "maven spring boot run" (trace s) = 1%nat /\
  exists p,
    8000 <= p <= 8100 /\
    last (spawned (world s)) = Some ("mvn", runArguments p) /\
    last (channel (world s)) =
      Some (mkSlackMessage "Maven Spring Boot Run"
              ("Successfully started "
               +:+ Slack.codeLine (slack ext) (Str.slice 0 7 (commit push))
               +:+ " at " +:+ Slack.url (slack ext) (appUrlOf p))).
Proof.
  intros s. subst s.
  destruct (decide ("pom.xml" ∈ snapshot push)) as [Hpom|Hpom].
  2:{ rewrite (handlePush_without_pom ext push w Hpom). discriminate. }
  rewrite (handlePush_with_pom ext push w Hpom). cbv zeta.
  rewrite executeGoal_build.
  destruct (MvnVersion ext _ w) as [[[]|e] w1]; [|discriminate].
  destruct (mavenBuilder ext _ w1) as [o w2].
  destruct (Executor.outcomeState o); try discriminate.
  rewrite executeGoal_run.
  pose proof (run_action_cases ext (Executor.invocationOf push) w2) as Hcases.
  destruct (mavenSpringBootRun_action ext _ w2) as [o2 w3].
  cbn [results trace world app]. rewrite lookup_insert_eq.
  destruct (Executor.outcomeState o2) eqn:Hst; try discriminate. intros _.
  split; [exact Hpom|]. split; [reflexivity|]. split; [reflexivity|].
  destruct (PortAllocator.scanFreePort ext 8000 8100 w2) as [[p|e] w2'].
  2:{ destruct Hcases as [[= -> _] _]. discriminate Hst. }
  destruct Hcases as (Hp & _ & Hcases). cbv zeta in Hcases.
  exists p. split; [exact Hp|].
  destruct (processOutcome ext "mvn" (runArguments p)) as [[|c|c] out|reason];
    [destruct (delivery ext _)| | |];
    injection Hcases as -> ->; try discriminate Hst.
  cbn [spawned channel]. rewrite !last_snoc. split; reflexivity.
Qed.

Lemma pom_push_run_success_witness :
  last (channel (world (Executor.handlePush
                          (configuration (Sample.machine 0 0 false))
                          Sample.withPom Sample.world)))
  = Some (mkSlackMessage "Maven Spring Boot Run"
            "Successfully started `0123456` at <http://localhost:8003>").
Proof.
  destruct (pom_push_run_success (Sample.machine 0 0 false)
              Sample.withPom Sample.world)
    as (_ & _ & _ & p & _ & Hspawned & Hchannel).
  - vm_compute; reflexivity.
  - rewrite Hchannel. clear Hchannel. revert Hspawned.
    vm_compute. intros [= <-]. reflexivity.
Defined.
